(** * The Firestore facade of [dags/firebase/firestore.py]

    A shallow embedding of the static methods of class [Firestore] and the
    properties of the ownership guard, the identifier injection of [add]
    and the read paths.

    The facade talks to a document store through a client object.  The
    client is an interface here ([Client]): the facade is written once,
    over any client, in a state-and-exception monad, so that what it does
    with a failing call is part of the model.  [MemStore] is the reference
    client: collections of documents held in finite maps. *)

From stdpp Require Import gmap strings list fin_maps.

Open Scope string_scope.

(** ** Field values and documents *)

(** The values a document field holds.  [VNone] is Python's [None]. *)
Inductive value :=
| VNone
| VBool (b : bool)
| VInt (n : Z)
| VStr (s : string).

#[global] Instance value_eq_dec : EqDecision value.
Proof. solve_decision. Defined.

(** A document is a mapping from field names to values; [to_dict()] of a
    snapshot and every [Dict] argument of the facade have this type. *)
Abbreviation document := (gmap string value).

(** [d.get(k)]: the value stored under [k], [None] when there is none. *)
Definition dict_get (d : document) (k : string) : value :=
  default VNone (d !! k).

(** ** Exceptions and the monad of client calls *)

Inductive exn :=
| ValueError (msg : string)
| TypeError (msg : string)
| NotFound (path : string)
| StoreError (reason : string).

Inductive result (A : Type) :=
| Ok (a : A)
| Raise (e : exn).
Arguments Ok {A} a.
Arguments Raise {A} e.

(** A computation reads and changes the state of the store and either
    returns or raises; the state it leaves is kept in both cases, since a
    write made before a failure is not rolled back. *)
Definition M (St A : Type) : Type := St → result A * St.

Definition ret {St A} (a : A) : M St A := λ s, (Ok a, s).

Definition raise {St A} (e : exn) : M St A := λ s, (Raise e, s).

Definition bind {St A B} (c : M St A) (k : A → M St B) : M St B :=
  λ s, match c s with
       | (Ok a, s') => k a s'
       | (Raise e, s') => (Raise e, s')
       end.

Declare Scope facade_scope.
Delimit Scope facade_scope with facade.
Notation "x <~ c ;; k" := (bind c (λ x, k))
  (at level 100, c at next level, right associativity) : facade_scope.
Notation "c ;;; k" := (bind c (λ _, k))
  (at level 100, right associativity) : facade_scope.
Open Scope facade_scope.

(** [for doc in docs: body(doc)]: the loop stops at the first iteration
    that raises. *)
Fixpoint for_each {St A} (l : list A) (body : A → M St unit) : M St unit :=
  match l with
  | [] => ret tt
  | x :: l' => body x ;;; for_each l' body
  end.

(** The shape shared by [update], [update_where] and [delete]:
<<
    flag = False
    try:
        ...            # flag = True is the last statement of a path
    except Exception as e:
        print(...)
    finally:
        return flag
>>
    The body is modelled as a computation whose result is the value of the
    flag when the [try] block ends normally.  When it raises, the flag is
    still [False], and the [return] of the [finally] clause discards the
    exception, whatever its class. *)
Definition try_finally_return {St} (body : M St bool) : M St bool :=
  λ s, match body s with
       | (Ok flag, s') => (Ok flag, s')
       | (Raise _, s') => (Ok false, s')
       end.

(** ** The client interface *)

(** [FieldFilter(field, "==", value)]; equality is the only operator the
    facade uses. *)
Record field_filter := FieldFilter { ff_field : string; ff_value : value }.

(** A collection reference with the filters chained on it so far. *)
Record query_ref := QueryRef { q_coll : string; q_filters : list field_filter }.

Record doc_ref := DocRef { d_coll : string; d_id : string }.

(** A document snapshot: its [id], and [to_dict()], which is [None] for a
    document that does not exist. *)
Record snapshot := Snapshot { snap_id : string; to_dict : option document }.

Definition snap_exists (doc : snapshot) : bool := bool_decide (is_Some (to_dict doc)).

(** What a write returns: an acknowledgement, not an identifier. *)
Inductive write_result := WriteResult.

(** [client.collection(name)] *)
Definition collection_ref (name : string) : query_ref := QueryRef name [].

(** [ref.where(filter=f)] *)
Definition where_ (ref : query_ref) (f : field_filter) : query_ref :=
  QueryRef (q_coll ref) (q_filters ref ++ [f]).

Class Client (St : Type) := {
  (** [ref.stream()], read to its end *)
  stream : query_ref → M St (list snapshot);
  (** [ref.document(key)] *)
  document_at : query_ref → value → M St doc_ref;
  (** [doc_ref.get()] *)
  doc_get : doc_ref → M St snapshot;
  (** [ref.add(data)[1]]: the reference of the document created under a
      key the store picks *)
  coll_add : query_ref → document → M St doc_ref;
  (** [doc_ref.set(data)] *)
  doc_set : doc_ref → document → M St write_result;
  (** [doc_ref.update(fields)] *)
  doc_update : doc_ref → document → M St write_result;
  (** [doc_ref.delete()] *)
  doc_delete : doc_ref → M St unit;
}.

(** ** The normalizer

    [DBUtils] lives in [dags/firebase/utils.py]. *)

(** Modelled from the spec: [DBUtils.parse_doc], of the module [utils],
    "converting one store-native document into a plain field mapping". *)
Definition parse_doc (doc : snapshot) : document := default ∅ (to_dict doc).

(** Modelled from the spec: [DBUtils.filter_empty], of the module [utils],
    "dropping entries that are empty/null-equivalent". *)
Definition filter_empty (docs : list document) : list document :=
  filter (λ d, d ≠ ∅) docs.

(** ** The facade *)

(** What [add_with_existing_id] can hand back: Python does not tell a field
    value from the result of a write by type. *)
Inductive pyobj :=
| PyValue (v : value)
| PyWriteResult (w : write_result).

Module Firestore.

Section Facade.
Context {St : Type} `{!Client St}.

Definition scan (collection : string) : M St (list document) :=
  let ref := collection_ref collection in
  docs <~ stream ref ;;
  ret (filter_empty (parse_doc <$> docs)).

Definition get_docs (collection : string) (uid : string) : M St (list document) :=
  let ref := collection_ref collection in
  let query := where_ ref (FieldFilter "uid" (VStr uid)) in
  docs <~ stream query ;;
  ret (filter_empty (parse_doc <$> docs)).

Definition get_doc (collection : string) (doc_id : string) : M St (option document) :=
  doc_ref <~ document_at (collection_ref collection) (VStr doc_id) ;;
  doc <~ doc_get doc_ref ;;
  if snap_exists doc then ret (to_dict doc) else ret None.

(** [for key, value in key_values.items(): ref = ref.where(...)] *)
Definition chain_filters (ref : query_ref) (key_values : document) : query_ref :=
  foldl (λ ref kv, where_ ref (FieldFilter kv.1 kv.2)) ref (map_to_list key_values).

Definition query (collection : string) (key_values : document) : M St (list document) :=
  let ref := collection_ref collection in
  let ref := chain_filters ref key_values in
  docs <~ stream ref ;;
  ret (filter_empty (parse_doc <$> docs)).

(** [time_now] is the reading of the clock that opens the call,
    [datetime.now(timezone.utc).isoformat()]. *)
Definition add (collection : string) (data : document) (id_key_name : string)
    (time_now : string) : M St string :=
  let data := <["added_at" := VStr time_now]> data in
  let ref := collection_ref collection in
  new_ref <~ coll_add ref data ;;
  let doc_id := d_id new_ref in
  doc_ref <~ document_at ref (VStr doc_id) ;;
  doc_update doc_ref {[ id_key_name := VStr doc_id ]} ;;;
  ret doc_id.

Definition add_with_existing_id (collection : string) (data : document)
    (id_key_name : string) (time_now : string) : M St pyobj :=
  let data := <["added_at" := VStr time_now]> data in
  match data !! id_key_name with
  | None =>
      raise (ValueError ("ID key name " +:+ id_key_name +:+ " not found in the data."))
  | Some key =>
      ref <~ document_at (collection_ref collection) key ;;
      doc_id <~ doc_set ref data ;;
      ret (PyWriteResult doc_id)
  end.

(** [doc.exists and doc.to_dict().get("uid") == uid] *)
Definition owned_by (doc : snapshot) (uid : string) : bool :=
  match to_dict doc with
  | Some fields => bool_decide (dict_get fields "uid" = VStr uid)
  | None => false
  end.

Definition update_try (collection doc_id : string) (update_dict : document)
    (uid : option string) : M St bool :=
  ref <~ document_at (collection_ref collection) (VStr doc_id) ;;
  match uid with
  | Some uid =>
      doc <~ doc_get ref ;;
      if owned_by doc uid
      then doc_update ref update_dict ;;; ret true
      else ret false
  | None => doc_update ref update_dict ;;; ret true
  end.

Definition update (collection doc_id : string) (update_dict : document)
    (uid : option string) : M St bool :=
  try_finally_return (update_try collection doc_id update_dict uid).

(** The body of the loop of [update_where], for one streamed document. *)
Definition update_where_step (collection : string) (update_dict : document)
    (doc : snapshot) : M St unit :=
  doc_ref <~ document_at (collection_ref collection) (VStr (snap_id doc)) ;;
  doc_update doc_ref update_dict ;;;
  ret tt.

Definition update_where_try (collection : string) (key_values update_dict : document)
    : M St bool :=
  let ref := collection_ref collection in
  let ref := chain_filters ref key_values in
  docs <~ stream ref ;;
  for_each docs (update_where_step collection update_dict) ;;;
  ret true.

Definition update_where (collection : string) (key_values update_dict : document)
    : M St bool :=
  try_finally_return (update_where_try collection key_values update_dict).

Definition delete_try (collection doc_id : string) (uid : option string) : M St bool :=
  ref <~ document_at (collection_ref collection) (VStr doc_id) ;;
  match uid with
  | Some uid =>
      doc <~ doc_get ref ;;
      if owned_by doc uid
      then doc_delete ref ;;; ret true
      else ret false
  | None => doc_delete ref ;;; ret true
  end.

Definition delete (collection doc_id : string) (uid : option string) : M St bool :=
  try_finally_return (delete_try collection doc_id uid).

End Facade.

End Firestore.

(** ** The reference client: an in-memory store

    A store maps a collection name to the documents of the collection, by
    key.  A collection that was never written to is empty.  Field names
    are opaque keys of the top level of a document, and a key of a
    document is any string. *)

Abbreviation store := (gmap string (gmap string document)).

Module MemStore.

Definition docs_of (s : store) (c : string) : gmap string document :=
  default ∅ (s !! c).

Definition lookup_doc (s : store) (c id : string) : option document :=
  docs_of s c !! id.

Definition write_doc (c id : string) (d : document) (s : store) : store :=
  <[c := <[id := d]> (docs_of s c)]> s.

Definition remove_doc (c id : string) (s : store) : store :=
  <[c := delete id (docs_of s c)]> s.

#[global] Arguments docs_of : simpl never.
#[global] Arguments lookup_doc : simpl never.
#[global] Arguments write_doc : simpl never.
#[global] Arguments remove_doc : simpl never.

(** A document passes an equality filter when it has the field and the
    field holds the value. *)
Definition passes (d : document) (f : field_filter) : bool :=
  bool_decide (d !! ff_field f = Some (ff_value f)).

Definition matches (fs : list field_filter) (d : document) : bool :=
  forallb (passes d) fs.

#[global] Arguments matches : simpl never.

Definition mem_stream (q : query_ref) : M store (list snapshot) :=
  λ s, (Ok ((λ kd : string * document, Snapshot kd.1 (Some kd.2)) <$>
              filter (λ kd, matches (q_filters q) kd.2)
                     (map_to_list (docs_of s (q_coll q)))), s).

Definition mem_document_at (q : query_ref) (key : value) : M store doc_ref :=
  match key with
  | VStr id => ret (DocRef (q_coll q) id)
  | _ => raise (TypeError "document key must be a string")
  end.

Definition mem_doc_get (r : doc_ref) : M store snapshot :=
  λ s, (Ok (Snapshot (d_id r) (lookup_doc s (d_coll r) (d_id r))), s).

(** The new key is one no document of the collection has. *)
Definition mem_coll_add (q : query_ref) (data : document) : M store doc_ref :=
  λ s, let id := fresh (dom (docs_of s (q_coll q))) in
       (Ok (DocRef (q_coll q) id), write_doc (q_coll q) id data s).

(** Create or replace. *)
Definition mem_doc_set (r : doc_ref) (data : document) : M store write_result :=
  λ s, (Ok WriteResult, write_doc (d_coll r) (d_id r) data s).

(** Merge into an existing document; a missing document is an error. *)
Definition mem_doc_update (r : doc_ref) (fields : document) : M store write_result :=
  λ s, match lookup_doc s (d_coll r) (d_id r) with
       | Some old => (Ok WriteResult, write_doc (d_coll r) (d_id r) (fields ∪ old) s)
       | None => (Raise (NotFound (d_id r)), s)
       end.

Definition mem_doc_delete (r : doc_ref) : M store unit :=
  λ s, (Ok tt, remove_doc (d_coll r) (d_id r) s).

#[global] Instance mem_client : Client store := {|
  stream := mem_stream;
  document_at := mem_document_at;
  doc_get := mem_doc_get;
  coll_add := mem_coll_add;
  doc_set := mem_doc_set;
  doc_update := mem_doc_update;
  doc_delete := mem_doc_delete;
|}.

End MemStore.

(** ** A client whose store stops answering

    The same store behind a connection that serves a given number of
    round trips and then fails every call.  Building a reference makes no
    round trip. *)

Module FlakyStore.

Import MemStore.

Definition round_trip {A} (call : M store A) : M (nat * store) A :=
  λ ns, match ns.1 with
        | O => (Raise (StoreError "unavailable"), ns)
        | S n => let r := call ns.2 in (r.1, (n, r.2))
        end.

Definition local {A} (call : M store A) : M (nat * store) A :=
  λ ns, let r := call ns.2 in (r.1, (ns.1, r.2)).

#[global] Instance flaky_client : Client (nat * store) := {|
  stream q := round_trip (mem_stream q);
  document_at q key := local (mem_document_at q key);
  doc_get r := round_trip (mem_doc_get r);
  coll_add q data := round_trip (mem_coll_add q data);
  doc_set r data := round_trip (mem_doc_set r data);
  doc_update r fields := round_trip (mem_doc_update r fields);
  doc_delete r := round_trip (mem_doc_delete r);
|}.

End FlakyStore.

(** ** Stores used in the examples *)

Definition t0 : string := "2024-01-01T00:00:00+00:00".
Definition t1 : string := "2024-06-30T12:00:00+00:00".

Definition ann : document :=
  {[ "uid" := VStr "u1"; "name" := VStr "Ann"; "added_at" := VStr t0 ]}.
Definition bo : document :=
  {[ "name" := VStr "Bo"; "added_at" := VStr t0 ]}.

Definition users0 : store :=
  {[ "users" := {[ "d1" := ann; "d2" := bo; "d3" := ∅ ]} ]}.

(** ** Vocabulary of the statements *)

(** The filters [chain_filters] puts on a reference, one for each entry of
    [key_values]. *)
Definition filters_of (key_values : document) : list field_filter :=
  (λ kv, FieldFilter kv.1 kv.2) <$> map_to_list key_values.



(** ** The store: reading what was written *)

Section store_lemmas.
Import MemStore.
Implicit Types (s : store) (c id : string) (d : document).






Lemma fresh_key_unused s c : lookup_doc s c (fresh (dom (docs_of s c))) = None.
Proof. unfold lookup_doc. apply not_elem_of_dom, is_fresh. Qed.

End store_lemmas.

(** ** The ownership guard *)

Section guard_lemmas.
Import MemStore.
Implicit Types (s : store) (d patch : document) (u : string).

Lemma dict_get_uid d u :
  dict_get d "uid" = VStr u ↔ d !! "uid" = Some (VStr u).
Proof.
  unfold dict_get. destruct (d !! "uid") as [v|]; simpl; split; congruence.
Qed.

(** The guarded paths of [update] and [delete], run on the store. *)
Lemma update_guarded_run C id patch u s :
  Firestore.update C id patch (Some u) s =
  match lookup_doc s C id with
  | Some d =>
      if bool_decide (dict_get d "uid" = VStr u)
      then (Ok true, write_doc C id (patch ∪ d) s)
      else (Ok false, s)
  | None => (Ok false, s)
  end.
Proof.
  unfold Firestore.update, Firestore.update_try, try_finally_return, bind.
  cbn. unfold Firestore.owned_by, mem_doc_update, lookup_doc. cbn.
  destruct (docs_of s C !! id) as [d|] eqn:Hd; cbn; [|done].
  case_bool_decide; cbn; [|done]. by rewrite Hd.
Qed.

Lemma delete_guarded_run C id u s :
  Firestore.delete C id (Some u) s =
  match lookup_doc s C id with
  | Some d =>
      if bool_decide (dict_get d "uid" = VStr u)
      then (Ok true, remove_doc C id s)
      else (Ok false, s)
  | None => (Ok false, s)
  end.
Proof.
  unfold Firestore.delete, Firestore.delete_try, try_finally_return, bind.
  cbn. unfold Firestore.owned_by, lookup_doc. cbn.
  destruct (docs_of s C !! id) as [d|] eqn:Hd; cbn; [|done].
  by case_bool_decide.
Qed.

End guard_lemmas.

(** Whatever the client does, a call of the three boolean operations
    ends with a boolean. *)
Lemma try_finally_return_total {St} (body : M St bool) (s : St) :
  ∃ flag, (try_finally_return body s).1 = Ok flag.
Proof.
  unfold try_finally_return. destruct (body s) as [[flag|e] s']; eauto.
Qed.

(** X16.  For every client, also one whose calls fail: a guarded [update]
    that returns [True] has read a document at the key whose ["uid"] is
    the guard value, and then made the one write. *)
Lemma update_guard_sound {St} `{!Client St}
    (C id : string) (patch : document) (u : string) (s s' : St) :
  Firestore.update C id patch (Some u) s = (Ok true, s') →
  ∃ ref s1 doc s2 fields w,
    document_at (collection_ref C) (VStr id) s = (Ok ref, s1) ∧
    doc_get ref s1 = (Ok doc, s2) ∧
    to_dict doc = Some fields ∧ fields !! "uid" = Some (VStr u) ∧
    doc_update ref patch s2 = (Ok w, s').
Proof.
  unfold Firestore.update, Firestore.update_try, try_finally_return, bind, ret.
  destruct (document_at _ _ s) as [[ref|e] s1] eqn:Href; [|discriminate].
  destruct (doc_get ref s1) as [[doc|e] s2] eqn:Hget; [|discriminate].
  unfold Firestore.owned_by.
  destruct (to_dict doc) as [fields|] eqn:Hdoc; [|discriminate].
  case_bool_decide as Hu; [|discriminate].
  destruct (doc_update ref patch s2) as [[w|e] s3] eqn:Hw; [|discriminate].
  intros [= <-]. apply dict_get_uid in Hu.
  by exists ref, s1, doc, s2, fields, w.
Qed.

(** X17.  The same for a guarded [delete]: one that returns [True] has
    read a document at the key whose ["uid"] is the guard value, and then
    deleted it. *)
Lemma delete_guard_sound {St} `{!Client St} (C id u : string) (s s' : St) :
  Firestore.delete C id (Some u) s = (Ok true, s') →
  ∃ ref s1 doc s2 fields,
    document_at (collection_ref C) (VStr id) s = (Ok ref, s1) ∧
    doc_get ref s1 = (Ok doc, s2) ∧
    to_dict doc = Some fields ∧ fields !! "uid" = Some (VStr u) ∧
    doc_delete ref s2 = (Ok tt, s').
Proof.
  unfold Firestore.delete, Firestore.delete_try, try_finally_return, bind, ret.
  destruct (document_at _ _ s) as [[ref|e] s1] eqn:Href; [|discriminate].
  destruct (doc_get ref s1) as [[doc|e] s2] eqn:Hget; [|discriminate].
  unfold Firestore.owned_by.
  destruct (to_dict doc) as [fields|] eqn:Hdoc; [|discriminate].
  case_bool_decide as Hu; [|discriminate].
  destruct (doc_delete ref s2) as [[[]|e] s3] eqn:Hw; [|discriminate].
  intros [= <-]. apply dict_get_uid in Hu.
  by exists ref, s1, doc, s2, fields.
Qed.


(** C10.  With a guard value supplied, a document that has no ["uid"]
    field is neither updated nor deleted: both calls return [False] and
    leave the store as it was. *)
Theorem guard_rejects_missing_uid (C id : string) (patch d : document) (u : string) (s : store) :
  MemStore.lookup_doc s C id = Some d →
  d !! "uid" = None →
  Firestore.update C id patch (Some u) s = (Ok false, s) ∧
  Firestore.delete C id (Some u) s = (Ok false, s).
Proof.
  intros Hd Hu. rewrite update_guarded_run, delete_guarded_run, Hd.
  rewrite bool_decide_eq_false_2; [done|].
  rewrite dict_get_uid. congruence.
Qed.

(** The document ["d2"] of [users0] has no ["uid"] field: neither call
    touches it. *)
Lemma guard_rejects_missing_uid_witness :
  MemStore.lookup_doc users0 "users" "d2" = Some bo ∧
  bo !! "uid" = None ∧
  Firestore.update "users" "d2" {[ "name" := VStr "Zed" ]} (Some "u1") users0
    = (Ok false, users0) ∧
  Firestore.delete "users" "d2" (Some "u1") users0 = (Ok false, users0).
Proof.
  assert (MemStore.lookup_doc users0 "users" "d2" = Some bo) as Hd
    by (vm_compute; reflexivity).
  assert (bo !! "uid" = None) as Hu by (vm_compute; reflexivity).
  split; [exact Hd|]. split; [exact Hu|].
  exact (guard_rejects_missing_uid "users" "d2" {[ "name" := VStr "Zed" ]} bo "u1"
           users0 Hd Hu).
Defined.

(** ** Insertion *)

Section add_lemmas.
Import MemStore.
Implicit Types (s : store) (data d : document) (k now : string).


End add_lemmas.



(** C3, at the input where the code departs from it: the key is missing
    from the caller's mapping, yet nothing is raised and a document is
    written, under the time as its key.  The test for the key comes after
    [added_at] was put in the mapping. *)
Theorem add_with_existing_id_added_at_key :
  (∅ : document) !! "added_at" = None ∧
  Firestore.add_with_existing_id "users" ∅ "added_at" t1 (∅ : store) =
    (Ok (PyWriteResult WriteResult),
     {[ "users" := {[ t1 := {[ "added_at" := VStr t1 ]} ]} ]}).
Proof. split; vm_compute; reflexivity. Qed.

(** X15.  For every other key the test does what C3 says, whatever the
    client: the call raises [ValueError] and no client call is made. *)
Lemma add_with_existing_id_missing_key {St} `{!Client St}
    (C : string) (data : document) (k now : string) (s : St) :
  k ≠ "added_at" →
  data !! k = None →
  Firestore.add_with_existing_id C data k now s =
    (Raise (ValueError ("ID key name " +:+ k +:+ " not found in the data.")), s).
Proof.
  intros Hk Hdata. unfold Firestore.add_with_existing_id.
  rewrite lookup_insert_ne by done. by rewrite Hdata.
Qed.

(** C4, at an input where the code departs from it: the call hands back
    what [set] returned, the acknowledgement of the write, and not the
    value of [data[id_key_name]] under which the document was stored. *)
Theorem add_with_existing_id_returns_write_result :
  let data : document := {[ "uid" := VStr "abc"; "name" := VStr "Bo" ]} in
  let r := Firestore.add_with_existing_id "users" data "uid" t1 (∅ : store) in
  data !! "uid" = Some (VStr "abc") ∧
  r.1 = Ok (PyWriteResult WriteResult) ∧
  r.1 ≠ Ok (PyValue (VStr "abc")) ∧
  MemStore.lookup_doc r.2 "users" "abc" = Some (<["added_at" := VStr t1]> data).
Proof. vm_compute. repeat split; discriminate. Qed.

(** The same for every client and every input: what a call that succeeds
    returns is the result of the write. *)
Lemma add_with_existing_id_result {St} `{!Client St}
    (C : string) (data : document) (k now : string) (s s' : St) (r : pyobj) :
  Firestore.add_with_existing_id C data k now s = (Ok r, s') →
  ∃ w, r = PyWriteResult w.
Proof.
  unfold Firestore.add_with_existing_id, bind, raise, ret.
  destruct (_ !! k); [|discriminate].
  destruct (document_at _ _ s) as [[ref|e] s1]; [|discriminate].
  destruct (doc_set _ _ s1) as [[w|e] s2]; [|discriminate].
  intros [= <- _]. by exists w.
Qed.

(** ** Reading *)

(** C5.  For every client and collection, [query(C, {})] is [scan(C)]: no
    filter is chained, and the same stream goes through the same
    normalization and the same removal of empty mappings. *)
Theorem query_empty_is_scan (St : Type) (cl : Client St) (C : string) (s : St) :
  Firestore.query C ∅ s = Firestore.scan C s.
Proof.
  unfold Firestore.query, Firestore.scan, Firestore.chain_filters.
  rewrite map_to_list_empty. reflexivity.
Qed.

Section read_lemmas.
Import MemStore.
Implicit Types (s : store) (d kv : document) (l : list (string * document)).

Lemma parse_stream l :
  parse_doc <$> ((λ kd : string * document, Snapshot kd.1 (Some kd.2)) <$> l) = l.*2.
Proof. rewrite <- list_fmap_compose. by apply list_fmap_ext. Qed.

Lemma matches_uid d u :
  matches [FieldFilter "uid" (VStr u)] d ↔ d !! "uid" = Some (VStr u).
Proof.
  unfold matches, passes. cbn. rewrite andb_true_r. apply bool_decide_spec.
Qed.

Lemma filter_matches_nil l : filter (λ kd, matches [] kd.2) l = l.
Proof.
  induction l as [|kd l IH]; [done|].
  rewrite filter_cons_True by done. by rewrite IH.
Qed.

(** Filtering the stream on ["uid"] and dropping the empty mappings is
    dropping the empty mappings and then keeping those with that ["uid"]. *)
Lemma filter_uid_normalized l u :
  filter_empty (filter (λ kd, matches [FieldFilter "uid" (VStr u)] kd.2) l).*2 =
  filter (λ d, d !! "uid" = Some (VStr u)) (filter_empty l.*2).
Proof.
  unfold filter_empty.
  induction l as [|[id d] l IH]; [done|].
  rewrite fmap_cons. cbn [snd].
  destruct (decide (d !! "uid" = Some (VStr u))) as [Hu|Hu].
  - assert (d ≠ ∅) as Hne by (intros ->; by rewrite lookup_empty in Hu).
    rewrite (filter_cons_True _ (id, d)) by by apply matches_uid.
    rewrite fmap_cons. cbn [snd].
    rewrite !(filter_cons_True _ d) by done.
    by rewrite IH.
  - rewrite (filter_cons_False _ (id, d)) by by rewrite matches_uid.
    rewrite IH. destruct (decide (d = ∅)) as [->|Hne].
    + by rewrite (filter_cons_False _ ∅) by naive_solver.
    + rewrite (filter_cons_True _ d) by done.
      by rewrite (filter_cons_False _ d) by done.
Qed.

Lemma chain_filters_spec ref kv :
  Firestore.chain_filters ref kv =
  QueryRef (q_coll ref) (q_filters ref ++ filters_of kv).
Proof.
  unfold Firestore.chain_filters, filters_of.
  generalize (map_to_list kv). intros l. revert ref.
  induction l as [|e l IH]; intros ref; cbn.
  - rewrite app_nil_r. by destruct ref.
  - rewrite IH. cbn. by rewrite <- app_assoc.
Qed.

(** A document passes the chained filters when it agrees with
    [key_values] on every field of [key_values]. *)
Lemma matches_filters_of kv d : matches (filters_of kv) d ↔ kv ⊆ d.
Proof.
  unfold matches, filters_of.
  rewrite forallb_True, Forall_fmap, Forall_forall, map_subseteq_spec.
  split.
  - intros H k v Hkv. apply elem_of_map_to_list in Hkv.
    specialize (H _ Hkv). by apply bool_decide_spec in H.
  - intros H [k v] Hkv. apply elem_of_map_to_list in Hkv.
    apply bool_decide_spec. cbn. by apply H.
Qed.




End read_lemmas.

(** C6.  [get_docs(C, u)] returns the mappings of [scan(C)] whose ["uid"]
    field is [u], in the order of [scan(C)]: all of them and no other.
    Neither call fails on the store, and nothing matching gives the empty
    list. *)
Theorem get_docs_is_scan_subset (C u : string) (s : store) :
  ∃ all,
    Firestore.scan C s = (Ok all, s) ∧
    Firestore.get_docs C u s = (Ok (filter (λ d, d !! "uid" = Some (VStr u)) all), s).
Proof.
  unfold Firestore.scan, Firestore.get_docs, bind.
  cbn. unfold MemStore.mem_stream. cbn.
  eexists. split; [reflexivity|].
  rewrite !parse_stream, filter_matches_nil.
  by rewrite filter_uid_normalized.
Qed.

(** ** Updating every match *)

Section update_where_lemmas.
Import MemStore.
Implicit Types (s t : store) (d kv patch : document) (l : list (string * document)).



End update_where_lemmas.



(** The [False] of [update_where], and what it leaves behind: the store
    answers the stream and the first update and fails the second. *)
Example update_where_partial :
  let r := Firestore.update_where "users" ∅ {[ "seen" := VBool true ]} (2, users0) in
  r.1 = Ok false ∧
  MemStore.lookup_doc r.2.2 "users" "d3" = Some {[ "seen" := VBool true ]} ∧
  MemStore.lookup_doc r.2.2 "users" "d1" = Some ann ∧
  MemStore.lookup_doc r.2.2 "users" "d2" = Some bo.
Proof. vm_compute. repeat split. Qed.



(** ** The [added_at] field *)

Section added_at_lemmas.
Import MemStore.
Implicit Types (s : store) (d data patch : document).








End added_at_lemmas.




(** * Further properties of the facade *)

(** ** Updates and deletions without a guard, and reading them back *)

Section mutation_lemmas.
Import MemStore.
Implicit Types (s : store) (d patch : document) (g : option string).






End mutation_lemmas.






(** ** Listing reads *)

Section listing_lemmas.
Import MemStore.
Implicit Types (s : store) (d kv : document) (l : list (string * document)).

(** Streaming under the filters of [key_values] and dropping the empty
    mappings is dropping the empty mappings of the whole stream and then
    keeping those that agree with [key_values]. *)
Lemma filter_kv_normalized l kv :
  filter_empty (filter (λ kd, matches (filters_of kv) kd.2) l).*2 =
  filter (λ d, kv ⊆ d) (filter_empty l.*2).
Proof.
  unfold filter_empty.
  induction l as [|[id d] l IH]; [done|].
  rewrite fmap_cons. cbn [snd].
  destruct (decide (kv ⊆ d)) as [Hsub|Hsub].
  - rewrite (filter_cons_True _ (id, d)) by by apply matches_filters_of.
    rewrite fmap_cons. cbn [snd].
    destruct (decide (d = ∅)) as [->|Hne].
    + by rewrite !(filter_cons_False _ ∅) by naive_solver.
    + rewrite !(filter_cons_True _ d) by done. by rewrite IH.
  - rewrite (filter_cons_False _ (id, d)) by by rewrite matches_filters_of.
    rewrite IH. destruct (decide (d = ∅)) as [->|Hne].
    + by rewrite (filter_cons_False _ ∅) by naive_solver.
    + rewrite (filter_cons_True _ d) by done.
      by rewrite (filter_cons_False _ d) by done.
Qed.

Lemma scan_run C s :
  Firestore.scan C s = (Ok (filter_empty (map_to_list (docs_of s C)).*2), s).
Proof.
  unfold Firestore.scan, bind. cbn. unfold mem_stream. cbn.
  by rewrite parse_stream, filter_matches_nil.
Qed.

Lemma query_run C kv s :
  Firestore.query C kv s =
  (Ok (filter (λ d, kv ⊆ d) (filter_empty (map_to_list (docs_of s C)).*2)), s).
Proof.
  unfold Firestore.query, bind. rewrite chain_filters_spec.
  cbn. unfold mem_stream. cbn.
  by rewrite parse_stream, filter_kv_normalized.
Qed.

End listing_lemmas.

(** X5.  [query(C, key_values)] returns the mappings of [scan(C)] that
    hold, for every entry of [key_values], that value under that field:
    all of them, no other, in the order of [scan(C)].  A mapping that
    lacks one of the fields is left out. *)
Theorem query_is_scan_filtered (C : string) (kv : document) (s : store) :
  ∃ all,
    Firestore.scan C s = (Ok all, s) ∧
    Firestore.query C kv s = (Ok (filter (λ d, kv ⊆ d) all), s) ∧
    ∀ d, d ∈ filter (λ d, kv ⊆ d) all ↔
         d ∈ all ∧ ∀ f v, kv !! f = Some v → d !! f = Some v.
Proof.
  eexists. split; [apply scan_run|]. split; [apply query_run|].
  intros d. rewrite list_elem_of_filter, map_subseteq_spec. tauto.
Qed.

(** X6.  For every client, [get_docs(C, uid)] is [query(C, {"uid": uid})]:
    the same reference is streamed and normalized. *)
Theorem get_docs_is_query_uid (St : Type) (cl : Client St) (C u : string) (s : St) :
  Firestore.get_docs C u s = Firestore.query C {[ "uid" := VStr u ]} s.
Proof.
  unfold Firestore.get_docs, Firestore.query, Firestore.chain_filters.
  by rewrite map_to_list_singleton.
Qed.

Lemma filter_empty_snd (l : list (string * document)) :
  filter_empty l.*2 = (filter (λ kd, kd.2 ≠ ∅) l).*2.
Proof.
  unfold filter_empty. induction l as [|[id d] l IH]; [done|].
  rewrite fmap_cons. cbn [snd]. destruct (decide (d = ∅)) as [->|Hne].
  - rewrite (filter_cons_False _ ∅) by naive_solver.
    by rewrite (filter_cons_False _ (id, ∅)) by naive_solver.
  - rewrite (filter_cons_True _ d) by done.
    rewrite (filter_cons_True _ (id, d)) by done.
    rewrite fmap_cons. cbn [snd]. by rewrite IH.
Qed.

(** X7.  [scan(C)] leaves the store as it is and returns the stored
    mappings of the collection [C] that are not empty, one for each key
    that holds one: the result lines up with a list of distinct keys of
    [C], each entry being the mapping stored at its key, and every key of
    [C] that holds a non-empty mapping is in that list. *)
Theorem scan_lists_collection (C : string) (s : store) :
  ∃ all keys,
    Firestore.scan C s = (Ok all, s) ∧
    NoDup keys ∧
    Forall2 (λ id d, MemStore.lookup_doc s C id = Some d) keys all ∧
    (∀ id, id ∈ keys ↔ ∃ d, MemStore.lookup_doc s C id = Some d ∧ d ≠ ∅).
Proof.
  set (l := filter (λ kd : string * document, kd.2 ≠ ∅)
                   (map_to_list (MemStore.docs_of s C))).
  assert (∀ id d, (id, d) ∈ l ↔ MemStore.lookup_doc s C id = Some d ∧ d ≠ ∅) as Hl.
  { intros id d. unfold l, MemStore.lookup_doc.
    rewrite list_elem_of_filter, elem_of_map_to_list. cbn. tauto. }
  exists l.*2, l.*1.
  split; [by rewrite scan_run, filter_empty_snd|].
  split; [|split].
  - eapply sublist_NoDup; [apply (NoDup_fst_map_to_list (MemStore.docs_of s C))|].
    apply fmap_sublist, sublist_filter.
  - apply Forall2_fmap, Forall_Forall2_diag, Forall_forall.
    intros [id d] Hin. by apply Hl in Hin as [? _].
  - intros id. rewrite list_elem_of_fmap. split.
    + intros ([id' d] & -> & Hin). exists d. by apply Hl.
    + intros (d & Hd). exists (id, d). split; [done|]. by apply Hl.
Qed.

(** ** Insertion, read back *)

Section insertion_lemmas.
Import MemStore.
Implicit Types (s : store) (d data : document) (k now : string).


End insertion_lemmas.






(** X12.  [add] is two writes and nothing ties them together.  On a store
    that answers the insertion and fails the next call, [add] raises, and
    the document stays in the store, stamped with the time but without
    its key under [id_key_name]: that field holds what the caller's
    mapping had there, if anything.  On a store that fails the insertion,
    [add] raises and nothing is written. *)
Theorem add_interrupted (C : string) (data : document) (k now : string) (s : store) :
  ∃ id,
    MemStore.lookup_doc s C id = None ∧
    Firestore.add C data k now (1, s)
      = (Raise (StoreError "unavailable"),
         (0, MemStore.write_doc C id (<["added_at" := VStr now]> data) s)) ∧
    (k ≠ "added_at" → (<["added_at" := VStr now]> data) !! k = data !! k) ∧
    Firestore.add C data k now (0, s) = (Raise (StoreError "unavailable"), (0, s)).
Proof.
  exists (fresh (dom (MemStore.docs_of s C))).
  split; [apply fresh_key_unused|].
  split; [done|]. split; [|done].
  intros Hk. by apply lookup_insert_ne.
Qed.

(** ** Failures of the store, and what each operation makes of them *)

(** X13.  One failure, two policies.  For every client: when streaming
    the filtered reference raises, [query] raises the same exception to
    its caller, while [update_where] catches it and returns [False]; both
    leave the store as the failed call left it. *)
Theorem stream_failure_policy (St : Type) (cl : Client St) (C : string)
    (kv patch : document) (s s' : St) (e : exn) :
  stream (Firestore.chain_filters (collection_ref C) kv) s = (Raise e, s') →
  Firestore.query C kv s = (Raise e, s') ∧
  Firestore.update_where C kv patch s = (Ok false, s').
Proof.
  intros Hfail.
  unfold Firestore.query, Firestore.update_where, Firestore.update_where_try,
    try_finally_return, bind.
  by rewrite Hfail.
Qed.

(** A store that answers nothing more. *)
Lemma stream_failure_policy_witness :
  Firestore.query "users" {[ "name" := VStr "Bo" ]} (0, users0)
    = (Raise (StoreError "unavailable"), (0, users0)) ∧
  Firestore.update_where "users" {[ "name" := VStr "Bo" ]} {[ "seen" := VBool true ]}
    (0, users0) = (Ok false, (0, users0)).
Proof.
  apply (stream_failure_policy (nat * store) FlakyStore.flaky_client "users"
           {[ "name" := VStr "Bo" ]} {[ "seen" := VBool true ]} (0, users0) (0, users0)
           (StoreError "unavailable")).
  vm_compute. reflexivity.
Defined.

(** X14.  The same at one key.  For every client: when reading the
    document raises, [get_doc] raises the same exception, while [update]
    and [delete] under a guard return [False]; no write is attempted. *)
Theorem get_failure_policy (St : Type) (cl : Client St) (C id u : string)
    (patch : document) (s s1 s' : St) (ref : doc_ref) (e : exn) :
  document_at (collection_ref C) (VStr id) s = (Ok ref, s1) →
  doc_get ref s1 = (Raise e, s') →
  Firestore.get_doc C id s = (Raise e, s') ∧
  Firestore.update C id patch (Some u) s = (Ok false, s') ∧
  Firestore.delete C id (Some u) s = (Ok false, s').
Proof.
  intros Href Hfail.
  unfold Firestore.get_doc, Firestore.update, Firestore.update_try,
    Firestore.delete, Firestore.delete_try, try_finally_return, bind.
  by rewrite Href, Hfail.
Qed.

Lemma get_failure_policy_witness :
  Firestore.get_doc "users" "d1" (0, users0)
    = (Raise (StoreError "unavailable"), (0, users0)) ∧
  Firestore.update "users" "d1" {[ "name" := VStr "Zed" ]} (Some "u1") (0, users0)
    = (Ok false, (0, users0)) ∧
  Firestore.delete "users" "d1" (Some "u1") (0, users0) = (Ok false, (0, users0)).
Proof.
  apply (get_failure_policy (nat * store) FlakyStore.flaky_client "users" "d1" "u1"
           {[ "name" := VStr "Zed" ]} (0, users0) (0, users0) (0, users0)
           (DocRef "users" "d1") (StoreError "unavailable")).
  - vm_compute. reflexivity.
  - vm_compute. reflexivity.
Defined.

(** The call of X15 on an empty mapping, on the store. *)
Lemma add_with_existing_id_missing_key_witness :
  "uid" ≠ "added_at" ∧
  (∅ : document) !! "uid" = None ∧
  Firestore.add_with_existing_id "users" ∅ "uid" t1 users0 =
    (Raise (ValueError ("ID key name " +:+ "uid" +:+ " not found in the data.")),
     users0).
Proof.
  assert ("uid" ≠ "added_at") as Hk by discriminate.
  assert ((∅ : document) !! "uid" = None) as Hdata by (vm_compute; reflexivity).
  split; [exact Hk|]. split; [exact Hdata|].
  exact (add_with_existing_id_missing_key "users" ∅ "uid" t1 users0 Hk Hdata).
Defined.

(** The owner of ["d1"] renames it: the call of X16 on [users0]. *)
Lemma update_guard_sound_witness :
  ∃ s' ref s1 doc s2 fields w,
    Firestore.update "users" "d1" {[ "name" := VStr "Zed" ]} (Some "u1") users0
      = (Ok true, s') ∧
    document_at (collection_ref "users") (VStr "d1") users0 = (Ok ref, s1) ∧
    doc_get ref s1 = (Ok doc, s2) ∧
    to_dict doc = Some fields ∧ fields !! "uid" = Some (VStr "u1") ∧
    doc_update ref {[ "name" := VStr "Zed" ]} s2 = (Ok w, s').
Proof.
  assert (Firestore.update "users" "d1" {[ "name" := VStr "Zed" ]} (Some "u1") users0
          = (Ok true, (Firestore.update "users" "d1" {[ "name" := VStr "Zed" ]}
                         (Some "u1") users0).2)) as Hrun
    by (vm_compute; reflexivity).
  destruct (update_guard_sound _ _ _ _ _ _ Hrun)
    as (ref & s1 & doc & s2 & fields & w & H).
  eexists _, ref, s1, doc, s2, fields, w. split; [exact Hrun|exact H].
Defined.

(** The owner of ["d1"] deletes it: the call of X17 on [users0]. *)
Lemma delete_guard_sound_witness :
  ∃ s' ref s1 doc s2 fields,
    Firestore.delete "users" "d1" (Some "u1") users0 = (Ok true, s') ∧
    document_at (collection_ref "users") (VStr "d1") users0 = (Ok ref, s1) ∧
    doc_get ref s1 = (Ok doc, s2) ∧
    to_dict doc = Some fields ∧ fields !! "uid" = Some (VStr "u1") ∧
    doc_delete ref s2 = (Ok tt, s').
Proof.
  assert (Firestore.delete "users" "d1" (Some "u1") users0
          = (Ok true, (Firestore.delete "users" "d1" (Some "u1") users0).2)) as Hrun
    by (vm_compute; reflexivity).
  destruct (delete_guard_sound _ _ _ _ _ Hrun) as (ref & s1 & doc & s2 & fields & H).
  eexists _, ref, s1, doc, s2, fields. split; [exact Hrun|exact H].
Defined.

(** ** Updating every match, again *)

